(** * Container push command: post-push correlation workflow

    Shallow embedding of [artifactory/commands/container/push.go]
    ([PushCommand.Run] and [PushCommand.layersMapToFileTransferDetails]).

    The command talks to many collaborators that live in other packages
    (the container manager, the build configuration, the build-info
    builders, the build-info store, the temp-file serializer).  Their
    behaviour is taken as a record of functions, [Env]; every call the
    command makes is recorded in a chronological trace of [Event]s, and the
    only field of the command that [Run] mutates, [result], is threaded
    through a small state-and-error monad. *)

From Stdlib Require Import String Ascii List ZArith Lia Bool Arith.
Import ListNotations.
Open Scope string_scope.
Open Scope list_scope.

Set Implicit Arguments.

(** ** Go's [path.Join] and [path.Clean]

    [layersMapToFileTransferDetails] computes the target path with the Go
    standard library's [path.Join].  The two functions are written out here
    over byte lists, following the library's algorithm: [Join] glues the
    non-empty elements with a slash and cleans the outcome; [Clean] walks
    the path with a read index and an output buffer.  The buffer is kept
    reversed ([ro]), so that its write index is its length and the last
    byte written is its head. *)
Module GoPath.

Definition slash : ascii := "/"%char.
Definition dot : ascii := "."%char.

Definition is_slash (c : ascii) : bool := Ascii.eqb c slash.
Definition is_dot (c : ascii) : bool := Ascii.eqb c dot.

(** [out.w--; for out.w > dotdot && out.index(out.w) != '/' { out.w-- }]:
    [c] is the byte at the write index, [ro] what is left before it. *)
Fixpoint unwind (dotdot : nat) (c : ascii) (ro : list ascii) : list ascii :=
  match ro with
  | [] => []
  | c' :: ro' =>
      if (dotdot <? length ro)%nat && negb (is_slash c)
      then unwind dotdot c' ro'
      else ro
  end.

(** [for ; r < n && path[r] != '/'; r++ { out.append(path[r]) }] *)
Fixpoint copy_elem (rest ro : list ascii) : list ascii * list ascii :=
  match rest with
  | [] => ([], ro)
  | c :: rest' =>
      if is_slash c then (rest, ro) else copy_elem rest' (c :: ro)
  end.

(** The main loop of [Clean]; every turn reads at least one byte, so the
    length of the path (plus one) is fuel enough. *)
Fixpoint clean_loop (fuel : nat) (rooted : bool) (dotdot : nat)
         (rest ro : list ascii) : list ascii :=
  match fuel with
  | O => ro
  | S fuel' =>
      match rest with
      | [] => ro
      | c :: rest1 =>
          if is_slash c then
            (* empty path element *)
            clean_loop fuel' rooted dotdot rest1 ro
          else if is_dot c &&
                  match rest1 with [] => true | c1 :: _ => is_slash c1 end then
            (* . element *)
            clean_loop fuel' rooted dotdot rest1 ro
          else if is_dot c &&
                  match rest1 with
                  | c1 :: [] => is_dot c1
                  | c1 :: c2 :: _ => is_dot c1 && is_slash c2
                  | [] => false
                  end then
            (* .. element: remove to last / *)
            let rest2 := tl rest1 in
            if (dotdot <? length ro)%nat then
              match ro with
              | c' :: ro' => clean_loop fuel' rooted dotdot rest2 (unwind dotdot c' ro')
              | [] => clean_loop fuel' rooted dotdot rest2 ro
              end
            else if negb rooted then
              let ro1 := if (0 <? length ro)%nat then slash :: ro else ro in
              let ro2 := dot :: dot :: ro1 in
              clean_loop fuel' rooted (length ro2) rest2 ro2
            else clean_loop fuel' rooted dotdot rest2 ro
          else
            (* real path element: add slash if needed, copy element *)
            let w := length ro in
            let ro1 :=
              if (rooted && negb (w =? 1)%nat) || (negb rooted && negb (w =? 0)%nat)
              then slash :: ro else ro in
            let '(rest2, ro2) := copy_elem rest ro1 in
            clean_loop fuel' rooted dotdot rest2 ro2
      end
  end.

Definition Clean (path : string) : string :=
  match list_ascii_of_string path with
  | [] => "."
  | (c :: _) as p =>
      let rooted := is_slash c in
      let ro0 := if rooted then [slash] else [] in
      let rest0 := if rooted then tl p else p in
      let d0 := if rooted then 1%nat else 0%nat in
      match clean_loop (S (length p)) rooted d0 rest0 ro0 with
      | [] => "."
      | ro => string_of_list_ascii (rev ro)
      end
  end.

(** The gluing loop of [Join]: [buf] is the buffer so far. *)
Definition join_step (buf e : string) : string :=
  if negb (String.eqb buf "") || negb (String.eqb e "")
  then ((if negb (String.eqb buf "") then buf ++ "/" else buf) ++ e)%string
  else buf.

Definition Join (elem : list string) : string :=
  let size := fold_left (fun n e => (n + String.length e)%nat) elem 0%nat in
  if (size =? 0)%nat then ""
  else Clean (fold_left join_step elem "").

End GoPath.

(** ** Data model *)

(** [servicesutils.Property] and [servicesutils.ResultItem]: the fields the
    command reads. *)
Record Property := mkProperty { Key : string; Value : string }.

Record ResultItem := mkResultItem {
  Repo : string;
  Path : string;
  Name : string;
  Properties : list Property
}.

(** [clientutils.FileTransferDetails] *)
Record FileTransferDetails := mkFileTransferDetails {
  TargetPath : string;
  RtUrl : string;
  Sha256 : string
}.

(** [content.ContentReader], as [content.NewContentReader(file, arrayKey)]
    makes it. *)
Record ContentReader := NewContentReader {
  filePath : string;
  arrayKey : string
}.

(** [commandsutils.Result]: [new(commandsutils.Result)] is [newResult]. *)
Record Result := mkResult {
  reader : option ContentReader;
  successCount : Z
}.

Definition newResult : Result := mkResult None 0.
Definition SetReader (r : Result) (cr : ContentReader) : Result :=
  mkResult (Some cr) (successCount r).
Definition SetSuccessCount (r : Result) (n : Z) : Result :=
  mkResult (reader r) n.

(** ** The transfer manifest, lines 199 to 208 *)

(** The inner loop: [sha256 := ""], then every property whose key is
    "sha256" overwrites it. *)
Definition sha256_step (sha256 : string) (property : Property) : string :=
  if String.eqb (Key property) "sha256" then Value property else sha256.

Definition layerSha256 (layer : ResultItem) : string :=
  fold_left sha256_step (Properties layer) "".

(** The body of the outer loop: one [append] per layer. *)
Definition details_step (artifactoryUrl : string)
           (details : list FileTransferDetails) (layer : ResultItem)
  : list FileTransferDetails :=
  details ++
  [mkFileTransferDetails
     (GoPath.Join [Repo layer; Path layer; Name layer])
     artifactoryUrl
     (layerSha256 layer)].

Definition layersDetails (artifactoryUrl : string) (layers : list ResultItem)
  : list FileTransferDetails :=
  fold_left (details_step artifactoryUrl) layers [].

(** ** Errors

    A Go [error] value: either one handed back by a collaborator, or one
    made by [fmt.Errorf], plain or wrapping another with [%w].  A Go [nil]
    error is [None]. *)
Inductive error : Type :=
| CollabError (what : string)
| Errorf (msg : string)
| Wrapf (msg : string) (wrapped : error).

(** [errorutils.CheckError] logs and hands its argument back. *)
Definition CheckError (err : option error) : option error := err.

Definition moduleNilError : error :=
  Errorf "failed to create build info module: module is nil".
Definition saveBuildInfoError (err : error) : error :=
  Wrapf "failed to save build info: %w" err.
Definition summaryInfoError (err : error) : error :=
  Wrapf "failed to build summary info: %w" err.

(** A Go result pair [(T, error)] of which the command drops the value when
    the error is set. *)
Inductive res (A : Type) : Type :=
| Ok (a : A)
| Err (e : error).
Arguments Err {A} e.

(** ** The command *)

(** [containerutils.ContainerManagerType] *)
Inductive ContainerManagerType := DockerClient | Podman.

Definition isDockerClient (t : ContainerManagerType) : bool :=
  match t with DockerClient => true | Podman => false end.

(** [config.ServerDetails]: the field the command reads. *)
Record ServerDetails := mkServerDetails { ArtifactoryUrl : string }.

(** [PushCommand], with the fields of the embedded [ContainerCommand] that
    [Run] reads; [project] and [module] are what the build configuration's
    [GetProject] and [GetModule] give.  A nil [result] is [None]. *)
Record PushCommand := mkPushCommand {
  containerManagerType : ContainerManagerType;
  image : string;
  cmdParams : list string;
  serverDetails : ServerDetails;
  project : string;
  module : string;
  validateSha : bool;
  threads : Z;
  detailedSummary : bool;
  result : option Result
}.

Definition IsDetailedSummary (pc : PushCommand) : bool := detailedSummary pc.
Definition IsValidateSha (pc : PushCommand) : bool := validateSha pc.
Definition GetResult (pc : PushCommand) : option Result := result pc.

Definition SetResult (pc : PushCommand) (r : option Result) : PushCommand :=
  mkPushCommand (containerManagerType pc) (image pc) (cmdParams pc)
                (serverDetails pc) (project pc) (module pc) (validateSha pc)
                (threads pc) (detailedSummary pc) r.

Definition SetDetailedSummary (pc : PushCommand) (b : bool) : PushCommand :=
  mkPushCommand (containerManagerType pc) (image pc) (cmdParams pc)
                (serverDetails pc) (project pc) (module pc) (validateSha pc)
                (threads pc) b (result pc).

Definition SetValidateSha (pc : PushCommand) (b : bool) : PushCommand :=
  mkPushCommand (containerManagerType pc) (image pc) (cmdParams pc)
                (serverDetails pc) (project pc) (module pc) b
                (threads pc) (detailedSummary pc) (result pc).

Definition SetThreads (pc : PushCommand) (n : Z) : PushCommand :=
  mkPushCommand (containerManagerType pc) (image pc) (cmdParams pc)
                (serverDetails pc) (project pc) (module pc) (validateSha pc)
                n (detailedSummary pc) (result pc).

(** The method [ServerDetails] of the command: the field and a nil error. *)
Definition ServerDetailsOf (pc : PushCommand) : ServerDetails * option error :=
  (serverDetails pc, None).

(** ** Calls on collaborators *)

(** The two layer resolvers: the digest-based one is the
    [RemoteAgentBuildInfoBuilder], the tag-based one the
    [LocalAgentBuildInfoBuilder]. *)
Inductive Strategy := Digest | Tag.


(** One entry per call that leaves the command, in the order of the calls. *)
Inductive Event : Type :=
| EvInit
| EvValidateClientApiVersion
| EvPerformLogin
| EvRunNativeCmd (params : list string)
| EvIsCollectBuildInfo
| EvGetBuildName
| EvGetBuildNumber
| EvCreateServiceManager (threads : Z)
| EvGetRepo
| EvId (image : string)
| EvNewBuilder (s : Strategy) (imageSha256 : option string)
| EvSaveBuildGeneralDetails
| EvBuild (s : Strategy) (module : string)
| EvSetSkipTaggingLayers (skip : bool)
| EvGetLayers (s : Strategy)
| EvSaveBuildInfo
| EvSaveFileTransferDetails (details : list FileTransferDetails).

Section Command.

(** [buildinfo.BuildInfo], the service manager and the two builders are
    opaque to the command. *)
Variables BuildInfo ServiceManager RemoteBuilder LocalBuilder : Type.

(** What the collaborators answer.  A builder is an object that [Build]
    and [SetSkipTaggingLayers] may change: its methods take the builder
    and give the changed one back.  [Build] answers the Go pair as it is,
    since the command tells a nil module from an error. *)
Record Env := mkEnv {
  init : option error;
  ValidateClientApiVersion : option error;
  PerformLogin : ServerDetails -> ContainerManagerType -> option error;
  RunNativeCmd : list string -> option error;
  IsCollectBuildInfo : res bool;
  GetBuildName : res string;
  GetBuildNumber : res string;
  CreateServiceManagerWithThreads :
    ServerDetails -> bool -> Z -> Z -> Z -> res ServiceManager;
  GetRepo : res string;
  Id : string -> res string;
  NewRemoteAgentBuildInfoBuilder :
    string -> string -> string -> string -> string -> ServiceManager ->
    string -> res RemoteBuilder;
  NewLocalAgentBuildInfoBuilder :
    string -> string -> string -> string -> string -> ServiceManager ->
    res LocalBuilder;
  SaveBuildGeneralDetails : string -> string -> string -> option error;
  SaveBuildInfo : string -> string -> string -> BuildInfo -> option error;
  remoteBuild :
    RemoteBuilder -> string -> (option BuildInfo * option error) * RemoteBuilder;
  remoteGetLayers : RemoteBuilder -> list ResultItem;
  localBuild :
    LocalBuilder -> string -> (option BuildInfo * option error) * LocalBuilder;
  localSetSkipTaggingLayers : LocalBuilder -> bool -> LocalBuilder;
  localGetLayers : LocalBuilder -> list ResultItem;
  SaveFileTransferDetailsInTempFile : list FileTransferDetails -> res string
}.

(** *** The monad

    The state is the command and the trace so far.  A computation either
    goes on with a value or leaves the Go function with the error it
    returns ([None] for [return nil]). *)
Record World := mkWorld { cmd : PushCommand; trace : list Event }.

Inductive flow (A : Type) : Type :=
| Next (a : A)
| Return (err : option error).
Arguments Return {A} err.

Definition M (A : Type) : Type := World -> flow A * World.

Definition ret {A} (a : A) : M A := fun w => (Next a, w).
Definition leave {A} (err : option error) : M A := fun w => (Return err, w).
Definition bind {A B} (m : M A) (k : A -> M B) : M B :=
  fun w =>
    match m w with
    | (Next a, w') => k a w'
    | (Return err, w') => (Return err, w')
    end.

Definition emit (e : Event) : M unit :=
  fun w => (Next tt, mkWorld (cmd w) (trace w ++ [e])).
Definition getCmd : M PushCommand := fun w => (Next (cmd w), w).
Definition putCmd (pc : PushCommand) : M unit :=
  fun w => (Next tt, mkWorld pc (trace w)).

End Command.

Arguments Return {A} err.
Arguments ret {A} a.
Arguments leave {A} err.
Arguments bind {A B} m k.

Declare Scope cmd_scope.
Delimit Scope cmd_scope with cmd.
Notation "x <- m ;; k" := (bind m (fun x => k))
  (at level 100, m at next level, right associativity) : cmd_scope.
Notation "m ;; k" := (bind m (fun _ => k))
  (at level 100, right associativity) : cmd_scope.

(** A Go method of the command that returns an [error]. *)
Definition fn : Type := World -> option error * World.

(** The body of a function, run to its [return]; falling off the end does
    not happen in the two functions below. *)
Definition function (body : M unit) : fn :=
  fun w =>
    match body w with
    | (Next _, w') => (None, w')
    | (Return err, w') => (err, w')
    end.

(** [return f(...)] *)
Definition returning {A} (f : fn) : M A :=
  fun w => let '(err, w') := f w in (Return err, w').

(** [if err := f(...); err != nil { return err }] *)
Definition check (e : Event) (err : option error) : M unit :=
  (emit e ;;
   match err with
   | Some _ => leave err
   | None => ret tt
   end)%cmd.

(** [v, err := f(...); if err != nil { return err }] *)
Definition attempt {A} (e : Event) (r : res A) : M A :=
  (emit e ;;
   match r with
   | Err err => leave (Some err)
   | Ok a => ret a
   end)%cmd.

Section Run.

Variables BuildInfo ServiceManager RemoteBuilder LocalBuilder : Type.
Variable env : Env BuildInfo ServiceManager RemoteBuilder LocalBuilder.

Local Open Scope cmd_scope.

(** *** [layersMapToFileTransferDetails], lines 198 to 218 *)
Definition layersMapToFileTransferDetails
           (artifactoryUrl : string) (layers : list ResultItem) : fn :=
  function
    (let details := layersDetails artifactoryUrl layers in
     tempFile <- attempt (EvSaveFileTransferDetails details)
                         (SaveFileTransferDetailsInTempFile env details) ;;
     let result := newResult in
     let result := SetReader result (NewContentReader tempFile "files") in
     let result := SetSuccessCount result (Z.of_nat (length details)) in
     pc <- getCmd ;;
     putCmd (SetResult pc (Some result)) ;;
     leave None).

(** *** The digest-based path, lines 120 to 161 *)
Definition digestPath (pc : PushCommand) (serverDetails : ServerDetails)
           (toCollect : bool) (buildName buildNumber : string)
           (serviceManager : ServiceManager) (repo : string) : M unit :=
  imageSha256 <- attempt (EvId (image pc)) (Id env (image pc)) ;;
  remoteBuilder <-
    attempt (EvNewBuilder Digest (Some imageSha256))
            (NewRemoteAgentBuildInfoBuilder env (image pc) repo buildName
               buildNumber (project pc) serviceManager imageSha256) ;;
  remoteBuilder <-
    (if toCollect then
       check EvSaveBuildGeneralDetails
             (SaveBuildGeneralDetails env buildName buildNumber (project pc)) ;;
       emit (EvBuild Digest (module pc)) ;;
       let '((buildInfoModule, err), remoteBuilder) :=
         remoteBuild env remoteBuilder (module pc) in
       match err with
       | Some _ => leave err
       | None =>
           match buildInfoModule with
           | None => leave (CheckError (Some moduleNilError))
           | Some m =>
               emit EvSaveBuildInfo ;;
               match SaveBuildInfo env buildName buildNumber (project pc) m with
               | Some e => leave (CheckError (Some (saveBuildInfoError e)))
               | None => ret remoteBuilder
               end
           end
       end
     else ret remoteBuilder) ;;
  if IsDetailedSummary pc then
    remoteBuilder <-
      (if negb toCollect then
         (* No build info collection triggered yet, build it now for the
            summary *)
         emit (EvBuild Digest "") ;;
         let '((_, err), remoteBuilder) := remoteBuild env remoteBuilder "" in
         match err with
         | Some e => leave (CheckError (Some (summaryInfoError e)))
         | None => ret remoteBuilder
         end
       else ret remoteBuilder) ;;
    emit (EvGetLayers Digest) ;;
    returning (layersMapToFileTransferDetails
                 (ArtifactoryUrl serverDetails)
                 (remoteGetLayers env remoteBuilder))
  else leave None.

(** *** The tag-based path, lines 163 to 195 *)
Definition tagPath (pc : PushCommand) (serverDetails : ServerDetails)
           (toCollect : bool) (buildName buildNumber : string)
           (serviceManager : ServiceManager) (repo : string) : M unit :=
  builder <-
    attempt (EvNewBuilder Tag None)
            (NewLocalAgentBuildInfoBuilder env (image pc) repo buildName
               buildNumber (project pc) serviceManager) ;;
  builder <-
    (if toCollect then
       check EvSaveBuildGeneralDetails
             (SaveBuildGeneralDetails env buildName buildNumber (project pc)) ;;
       emit (EvBuild Tag (module pc)) ;;
       let '((buildInfoModule, err), builder) :=
         localBuild env builder (module pc) in
       match err, buildInfoModule with
       | Some _, _ => leave err
       | None, None => leave err
       | None, Some m =>
           check EvSaveBuildInfo
                 (SaveBuildInfo env buildName buildNumber (project pc) m) ;;
           ret builder
       end
     else ret builder) ;;
  if IsDetailedSummary pc then
    builder <-
      (if negb toCollect then
         (* The build-info collection hasn't been triggered at this
            point: skip setting the image build name/number props *)
         emit (EvSetSkipTaggingLayers true) ;;
         let builder := localSetSkipTaggingLayers env builder true in
         emit (EvBuild Tag "") ;;
         let '((_, err), builder) := localBuild env builder "" in
         match err with
         | Some _ => leave err
         | None => ret builder
         end
       else ret builder) ;;
    emit (EvGetLayers Tag) ;;
    returning (layersMapToFileTransferDetails
                 (ArtifactoryUrl serverDetails)
                 (localGetLayers env builder))
  else leave None.

(** *** [Run], lines 70 to 196 *)
Definition Run : fn :=
  function
    (pc <- getCmd ;;
     check EvInit (init env) ;;
     (if isDockerClient (containerManagerType pc)
      then check EvValidateClientApiVersion (ValidateClientApiVersion env)
      else ret tt) ;;
     let '(serverDetails, err) := ServerDetailsOf pc in
     match CheckError err with
     | Some _ => leave err
     | None =>
         (* Perform login *)
         check EvPerformLogin
               (PerformLogin env serverDetails (containerManagerType pc)) ;;
         (* Perform push. *)
         check (EvRunNativeCmd (cmdParams pc))
               (RunNativeCmd env (cmdParams pc)) ;;
         toCollect <- attempt EvIsCollectBuildInfo (IsCollectBuildInfo env) ;;
         if negb toCollect && negb (IsDetailedSummary pc) then leave None
         else
           buildName <- attempt EvGetBuildName (GetBuildName env) ;;
           buildNumber <- attempt EvGetBuildNumber (GetBuildNumber env) ;;
           serviceManager <-
             attempt (EvCreateServiceManager (threads pc))
                     (CreateServiceManagerWithThreads
                        env serverDetails false (threads pc) (-1) 0) ;;
           repo <- attempt EvGetRepo (GetRepo env) ;;
           if IsValidateSha pc
           then digestPath pc serverDetails toCollect buildName buildNumber
                           serviceManager repo
           else tagPath pc serverDetails toCollect buildName buildNumber
                        serviceManager repo
     end).

(** One invocation: the command as the caller set it up, no call made
    yet. *)
Definition start (pc : PushCommand) : World := mkWorld pc [].

Definition runError (pc : PushCommand) : option error := fst (Run (start pc)).
Definition runCmd (pc : PushCommand) : PushCommand := cmd (snd (Run (start pc))).
Definition runTrace (pc : PushCommand) : list Event := trace (snd (Run (start pc))).

End Run.

(** ** Properties of layers and traces *)

(** The detail that one layer gives, without the loop. *)
Definition detailOf (artifactoryUrl : string) (layer : ResultItem)
  : FileTransferDetails :=
  mkFileTransferDetails (GoPath.Join [Repo layer; Path layer; Name layer])
                        artifactoryUrl (layerSha256 layer).

Definition hasSha256Key (property : Property) : bool :=
  String.eqb (Key property) "sha256".




Definition isNewBuilder (e : Event) : bool :=
  match e with EvNewBuilder _ _ => true | _ => false end.

Definition isBuild (e : Event) : bool :=
  match e with EvBuild _ _ => true | _ => false end.

Definition isSetSkipTaggingLayers (e : Event) : bool :=
  match e with EvSetSkipTaggingLayers _ => true | _ => false end.

Definition isSaveBuildInfo (e : Event) : bool :=
  match e with EvSaveBuildInfo => true | _ => false end.

(** Build-info general details or module persisted. *)
Definition isPersistence (e : Event) : bool :=
  match e with
  | EvSaveBuildGeneralDetails | EvSaveBuildInfo => true
  | _ => false
  end.

Definition isManifestWrite (e : Event) : bool :=
  match e with EvSaveFileTransferDetails _ => true | _ => false end.


Definition none (p : Event -> bool) (t : list Event) : bool :=
  forallb (fun e => negb (p e)) t.

Definition buildCount (t : list Event) : nat := length (filter isBuild t).

(** Every [Build] on the tag-based builder comes right after
    [SetSkipTaggingLayers(true)]; [prev] is the call before the trace. *)
Fixpoint tagBuildsSkipTagging (prev : option Event) (t : list Event) : bool :=
  match t with
  | [] => true
  | e :: t' =>
      match e with
      | EvBuild Tag _ =>
          match prev with
          | Some (EvSetSkipTaggingLayers true) => true
          | _ => false
          end
      | _ => true
      end && tagBuildsSkipTagging (Some e) t'
  end.



(** The two calls on the container engine: the push and the digest
    query. *)
Definition isRunNativeCmd (e : Event) : bool :=
  match e with EvRunNativeCmd _ => true | _ => false end.



Definition isSetSkipTaggingLayersFalse (e : Event) : bool :=
  match e with EvSetSkipTaggingLayers false => true | _ => false end.

(** [SetSkipTaggingLayers(true)] and then at once [Build("")] on the
    tag-based builder, somewhere in the trace. *)
Fixpoint skipThenBuild (t : list Event) : bool :=
  match t with
  | [] => false
  | e :: t' =>
      match e, t' with
      | EvSetSkipTaggingLayers true, EvBuild Tag m :: _ =>
          String.eqb m "" || skipThenBuild t'
      | _, _ => skipThenBuild t'
      end
  end.

(** Every step of [Run] before the choice of the resolver went well, with
    these answers. *)
Definition preludeOk {BuildInfo ServiceManager RemoteBuilder LocalBuilder : Type}
           (env : Env BuildInfo ServiceManager RemoteBuilder LocalBuilder)
           (pc : PushCommand) (toCollect : bool)
           (buildName buildNumber : string) (serviceManager : ServiceManager)
           (repo : string) : Prop :=
  init env = None /\
  (isDockerClient (containerManagerType pc) = true ->
   ValidateClientApiVersion env = None) /\
  PerformLogin env (serverDetails pc) (containerManagerType pc) = None /\
  RunNativeCmd env (cmdParams pc) = None /\
  IsCollectBuildInfo env = Ok toCollect /\
  GetBuildName env = Ok buildName /\
  GetBuildNumber env = Ok buildNumber /\
  CreateServiceManagerWithThreads env (serverDetails pc) false (threads pc) (-1) 0
  = Ok serviceManager /\
  GetRepo env = Ok repo.

(** ** A concrete setting

    Builders that keep the layers they resolved (and, for the tag-based
    one, the skip-tagging flag); a build-info module is its name.  The
    answers that vary from run to run are arguments. *)
Module Sample.

Definition layer1 : ResultItem :=
  mkResultItem "r" "p" "n" [mkProperty "sha256" "abc"].
Definition layer2 : ResultItem :=
  mkResultItem "docker-local" "app/1.0" "manifest.json"
               [mkProperty "docker.manifest" "1.0"].
Definition layer3 : ResultItem :=
  mkResultItem "docker-local" "app/1.0" "sha256__f00"
               [mkProperty "sha256" "old"; mkProperty "size" "7";
                mkProperty "sha256" "f00"].

Definition Remote : Type := list ResultItem.
Definition Local : Type := (bool * list ResultItem)%type.

Definition sampleEnv
           (push : option error) (collect : res bool) (digest : res string)
           (saveGeneral : option error)
           (built : option string * option error)
  : Env string unit Remote Local :=
  mkEnv None None (fun _ _ => None) (fun _ => push) collect
        (Ok "build") (Ok "7") (fun _ _ _ _ _ => Ok tt) (Ok "docker-local")
        (fun _ => digest)
        (fun _ _ _ _ _ _ _ => Ok [])
        (fun _ _ _ _ _ _ => Ok (false, []))
        (fun _ _ _ => saveGeneral)
        (fun _ _ _ _ => None)
        (fun _ _ => (built, [layer1; layer2; layer3]))
        (fun b => b)
        (fun b _ => (built, (fst b, [layer1; layer2])))
        (fun b skip => (skip, snd b))
        (fun b => snd b)
        (fun _ => Ok "/tmp/details.json").

Definition okEnv (collect : bool) : Env string unit Remote Local :=
  sampleEnv None (Ok collect) (Ok "sha256:abc") None (Some "m", None).

Definition sampleCmd (validate summary : bool) : PushCommand :=
  mkPushCommand DockerClient "registry/app:1.0" ["push"; "registry/app:1.0"]
                (mkServerDetails "https://x") "proj" "m" validate 3 summary
                None.






(** [Build] answers a nil module and a nil error. *)
Definition nilModuleEnv : Env string unit Remote Local :=
  sampleEnv None (Ok true) (Ok "sha256:abc") None (None, None).

End Sample.

(** ** Case analysis on the answers of the collaborators *)

Ltac run_unfold :=
  unfold runError, runCmd, runTrace, Run, digestPath, tagPath,
         layersMapToFileTransferDetails, function, start,
         returning, check, attempt, bind, emit, getCmd, putCmd, ret, leave,
         ServerDetailsOf, CheckError, IsDetailedSummary, IsValidateSha;
  cbn [cmd trace fst snd app].

(** One answer that the run branches on and that is not itself a branch. *)
Ltac run_split :=
  match goal with
  | |- context [match ?x with _ => _ end] =>
      lazymatch x with
      | context [match _ with _ => _ end] => fail
      | _ => destruct x eqn:?
      end
  end.

(** The answers that the hypotheses fix are put in first. *)
Ltac run_known :=
  repeat match goal with
         | H : ?l = _ |- context [?l] => rewrite H
         end.

Ltac run_cases :=
  run_unfold; run_known;
  cbn [cmd trace fst snd app negb andb orb];
  repeat (run_split; cbn [cmd trace fst snd app negb andb orb]; try congruence).

(** ** More on traces, for the whole of [Run] *)

Definition isValidateClientApiVersion (e : Event) : bool :=
  match e with EvValidateClientApiVersion => true | _ => false end.

Definition isPerformLogin (e : Event) : bool :=
  match e with EvPerformLogin => true | _ => false end.

Definition isSaveBuildGeneralDetails (e : Event) : bool :=
  match e with EvSaveBuildGeneralDetails => true | _ => false end.

Definition isGetLayers (e : Event) : bool :=
  match e with EvGetLayers _ => true | _ => false end.

(** The place of a call in the text of [Run]: every call of one kind is
    written before every call of a kind with a greater place, on both
    paths. *)
Definition place (e : Event) : nat :=
  match e with
  | EvInit => 0
  | EvValidateClientApiVersion => 1
  | EvPerformLogin => 2
  | EvRunNativeCmd _ => 3
  | EvIsCollectBuildInfo => 4
  | EvGetBuildName => 5
  | EvGetBuildNumber => 6
  | EvCreateServiceManager _ => 7
  | EvGetRepo => 8
  | EvId _ => 9
  | EvNewBuilder _ _ => 10
  | EvSaveBuildGeneralDetails => 11
  | EvSetSkipTaggingLayers _ => 12
  | EvBuild _ _ => 13
  | EvSaveBuildInfo => 14
  | EvGetLayers _ => 15
  | EvSaveFileTransferDetails _ => 16
  end.

(** Every number is less than all that come after it. *)
Fixpoint ascending (l : list nat) : bool :=
  match l with
  | [] => true
  | a :: t => forallb (fun b => (a <? b)%nat) t && ascending t
  end.

Definition errorOf {A} (r : res A) : option error :=
  match r with
  | Ok _ => None
  | Err e => Some e
  end.

(** What a call of the first part of [Run] (lines 71 to 126: all that comes
    before a builder is made) answers as its error; [None] for the calls of
    the second part. *)
Definition preludeAnswer
           {BuildInfo ServiceManager RemoteBuilder LocalBuilder : Type}
           (env : Env BuildInfo ServiceManager RemoteBuilder LocalBuilder)
           (pc : PushCommand) (e : Event) : option (option error) :=
  match e with
  | EvInit => Some (init env)
  | EvValidateClientApiVersion => Some (ValidateClientApiVersion env)
  | EvPerformLogin =>
      Some (PerformLogin env (serverDetails pc) (containerManagerType pc))
  | EvRunNativeCmd params => Some (RunNativeCmd env params)
  | EvIsCollectBuildInfo => Some (errorOf (IsCollectBuildInfo env))
  | EvGetBuildName => Some (errorOf (GetBuildName env))
  | EvGetBuildNumber => Some (errorOf (GetBuildNumber env))
  | EvCreateServiceManager n =>
      Some (errorOf (CreateServiceManagerWithThreads
                       env (serverDetails pc) false n (-1) 0))
  | EvGetRepo => Some (errorOf (GetRepo env))
  | EvId img => Some (errorOf (Id env img))
  | _ => None
  end.

(** Every [Build] of the trace is asked for the module [m]. *)
Definition buildsNamed (m : string) (t : list Event) : bool :=
  forallb (fun e => match e with
                    | EvBuild _ m' => String.eqb m' m
                    | _ => true
                    end) t.

(** A path segment with no slash that is not empty and does not start with
    a dot, and a path made of such segments with one slash between them. *)
Definition plainSegment (s : string) : bool :=
  match list_ascii_of_string s with
  | [] => false
  | c :: t =>
      negb (GoPath.is_dot c) && forallb (fun x => negb (GoPath.is_slash x)) (c :: t)
  end.

Definition plainPath (s : string) : Prop :=
  exists segs, segs <> [] /\ forallb plainSegment segs = true /\
               s = String.concat "/" segs.

(** ** More concrete settings *)
Module Cases.

Definition loginError : error := CollabError "login: unauthorized".
Definition versionError : error := CollabError "docker api version too old".
Definition serializerError : error := CollabError "temp file: no space".

(** As [Sample.sampleEnv], with the answers of the other collaborators as
    arguments and a push that succeeds. *)
Definition env (validate login newBuilder saveInfo : option error)
           (saveFile : res string) (collect : res bool)
           (built : option string * option error)
  : Env string unit Sample.Remote Sample.Local :=
  mkEnv None validate (fun _ _ => login) (fun _ => None) collect
        (Ok "build") (Ok "7") (fun _ _ _ _ _ => Ok tt) (Ok "docker-local")
        (fun _ => Ok "sha256:abc")
        (fun _ _ _ _ _ _ _ =>
           match newBuilder with Some e => Err e | None => Ok [] end)
        (fun _ _ _ _ _ _ =>
           match newBuilder with Some e => Err e | None => Ok (false, []) end)
        (fun _ _ _ => None)
        (fun _ _ _ _ => saveInfo)
        (fun _ _ => (built, [Sample.layer1; Sample.layer2; Sample.layer3]))
        (fun b => b)
        (fun b _ => (built, (fst b, [Sample.layer1; Sample.layer2])))
        (fun b skip => (skip, snd b))
        (fun b => snd b)
        (fun _ => saveFile).

Definition fine (collect : bool) : Env string unit Sample.Remote Sample.Local :=
  env None None None None (Ok "/tmp/details.json") (Ok collect) (Some "m", None).

Definition loginFails : Env string unit Sample.Remote Sample.Local :=
  env None (Some loginError) None None (Ok "/tmp/details.json") (Ok true)
      (Some "m", None).

Definition versionFails : Env string unit Sample.Remote Sample.Local :=
  env (Some versionError) None None None (Ok "/tmp/details.json") (Ok true)
      (Some "m", None).




Definition serializerFails : Env string unit Sample.Remote Sample.Local :=
  env None None None None (Err serializerError) (Ok false) (Some "m", None).

Definition podmanCmd : PushCommand :=
  mkPushCommand Podman "registry/app:1.0" ["push"; "registry/app:1.0"]
                (mkServerDetails "https://x") "proj" "m" false 3 true None.

(** A command that still carries the result of an earlier run. *)
Definition staleResult : Result :=
  mkResult (Some (NewContentReader "/tmp/old.json" "files")) 5.

End Cases.

(** Segments as byte lists, and their gluing with one slash between. *)
Definition plainChars (s : list ascii) : bool :=
  match s with
  | [] => false
  | c :: t =>
      negb (GoPath.is_dot c) && forallb (fun x => negb (GoPath.is_slash x)) (c :: t)
  end.

Fixpoint glue (segs : list (list ascii)) : list ascii :=
  match segs with
  | [] => []
  | s :: rest =>
      match rest with
      | [] => s
      | _ :: _ => s ++ GoPath.slash :: glue rest
      end
  end.

(** The slash that [Clean] writes before an element when the buffer is not
    empty (on a path that is not rooted). *)
Definition sep (ro : list ascii) : list ascii :=
  if negb (length ro =? 0)%nat then GoPath.slash :: ro else ro.

(** The examples of the Go documentation of [path.Join] and [path.Clean]. *)
Example Join_doc :
  map GoPath.Join
      [["a"; "b"; "c"]; ["a"; "b/c"]; ["a/b"; "c"]; ["a/b"; "../../../xyz"];
       [""; ""]; ["a"; ""]; [""; "a"]]
  = ["a/b/c"; "a/b/c"; "a/b/c"; "../xyz"; ""; "a"; "a"].
Proof. vm_compute. reflexivity. Qed.

Example Clean_doc :
  map GoPath.Clean
      ["a/c"; "a//c"; "a/c/."; "a/c/b/.."; "/../a/c"; "/../a/b/../././/c"; ""]
  = ["a/c"; "a/c"; "a/c"; "a/c"; "/a/c"; "/a/c"; "."].
Proof. vm_compute. reflexivity. Qed.

(** ** The transfer manifest *)

Section Manifest.

Variable artifactoryUrl : string.

Lemma details_fold (layers : list ResultItem) :
  forall acc,
    fold_left (details_step artifactoryUrl) layers acc
    = acc ++ map (detailOf artifactoryUrl) layers.
Proof.
  induction layers as [| layer layers IH]; intros acc; simpl.
  - now rewrite app_nil_r.
  - rewrite IH. unfold details_step, detailOf.
    now rewrite <- app_assoc.
Qed.

(** The loop is a map over the layers. *)
Lemma layersDetails_map (layers : list ResultItem) :
  layersDetails artifactoryUrl layers = map (detailOf artifactoryUrl) layers.
Proof. unfold layersDetails. now rewrite details_fold. Qed.

Lemma layersDetails_length (layers : list ResultItem) :
  length (layersDetails artifactoryUrl layers) = length layers.
Proof. rewrite layersDetails_map. apply length_map. Qed.

Lemma layersDetails_nth (layers : list ResultItem) (i : nat) :
  nth_error (layersDetails artifactoryUrl layers) i
  = option_map (detailOf artifactoryUrl) (nth_error layers i).
Proof. rewrite layersDetails_map. apply nth_error_map. Qed.

End Manifest.

Lemma last_nonempty {A} (l : list A) (d d' : A) :
  l <> [] -> last l d = last l d'.
Proof.
  induction l as [| a [| b l] IH]; intros H; try congruence; try reflexivity.
  change (last (b :: l) d = last (b :: l) d'). apply IH. discriminate.
Qed.

(** The inner loop keeps the value of the last property with the key, and
    its start value when there is none. *)
Lemma sha256_fold (props : list Property) :
  forall acc,
    fold_left sha256_step props acc
    = Value (last (filter hasSha256Key props) (mkProperty "" acc)).
Proof.
  induction props as [| p props IH]; intros acc; [reflexivity |].
  cbn [fold_left filter]. rewrite IH.
  unfold sha256_step, hasSha256Key at 2.
  destruct (String.eqb (Key p) "sha256") eqn:E; [| reflexivity].
  destruct (filter hasSha256Key props) as [| q qs] eqn:F; [reflexivity |].
  change (last (p :: q :: qs) (mkProperty "" acc))
    with (last (q :: qs) (mkProperty "" acc)).
  f_equal. apply last_nonempty. discriminate.
Qed.

Lemma sha256_absent (props : list Property) :
  (forall p, In p props -> Key p <> "sha256") ->
  filter hasSha256Key props = [].
Proof.
  induction props as [| p props IH]; intros H; [reflexivity |].
  cbn [filter]. unfold hasSha256Key at 1.
  destruct (String.eqb_spec (Key p) "sha256") as [E | _].
  - exfalso. apply (H p); [now left | exact E].
  - apply IH. intros q Hq. apply H. now right.
Qed.

Section ManifestRun.

Variables BuildInfo ServiceManager RemoteBuilder LocalBuilder : Type.
Variable env : Env BuildInfo ServiceManager RemoteBuilder LocalBuilder.

(** What one call of [layersMapToFileTransferDetails] does. *)
Lemma layersMap_run (artifactoryUrl : string) (layers : list ResultItem)
      (w : World) :
  layersMapToFileTransferDetails env artifactoryUrl layers w
  = let details := layersDetails artifactoryUrl layers in
    let t := trace w ++ [EvSaveFileTransferDetails details] in
    match SaveFileTransferDetailsInTempFile env details with
    | Err e => (Some e, mkWorld (cmd w) t)
    | Ok tempFile =>
        (None,
         mkWorld (SetResult (cmd w)
                    (Some (mkResult (Some (NewContentReader tempFile "files"))
                                    (Z.of_nat (length details)))))
                 t)
    end.
Proof.
  unfold layersMapToFileTransferDetails, function, bind, attempt, emit.
  cbv zeta.
  destruct (SaveFileTransferDetailsInTempFile env
              (layersDetails artifactoryUrl layers)); reflexivity.
Qed.

(** C3: for the single resolved layer repo "r", path "p", name "n" with the
    property sha256 = "abc", and the base URL "https://x", the builder
    makes exactly one transfer detail: target path "r/p/n", repository URL
    "https://x", sha256 "abc"; this list is what it hands to the
    serializer. *)
Theorem C3_single_layer_detail (w : World) :
  let layers := [mkResultItem "r" "p" "n" [mkProperty "sha256" "abc"]] in
  let details := [mkFileTransferDetails "r/p/n" "https://x" "abc"] in
  layersDetails "https://x" layers = details /\
  trace (snd (layersMapToFileTransferDetails env "https://x" layers w))
  = trace w ++ [EvSaveFileTransferDetails details].
Proof.
  cbv zeta. split; [reflexivity |].
  rewrite layersMap_run. cbv zeta.
  change (layersDetails "https://x"
            [mkResultItem "r" "p" "n" [mkProperty "sha256" "abc"]])
    with [mkFileTransferDetails "r/p/n" "https://x" "abc"].
  destruct (SaveFileTransferDetailsInTempFile env _); reflexivity.
Qed.

(** C4: a layer without a property of key "sha256" gives a transfer detail
    whose sha256 is the empty string, and the builder does not fail for
    it: the only error it returns is the serializer's, and with the
    manifest written it returns nil. *)
Theorem C4_absent_sha256_is_empty
        (artifactoryUrl : string) (layers : list ResultItem)
        (i : nat) (layer : ResultItem) (w : World) :
  nth_error layers i = Some layer ->
  (forall p, In p (Properties layer) -> Key p <> "sha256") ->
  (exists d,
      nth_error (layersDetails artifactoryUrl layers) i = Some d /\
      Sha256 d = "" /\
      TargetPath d = GoPath.Join [Repo layer; Path layer; Name layer]) /\
  fst (layersMapToFileTransferDetails env artifactoryUrl layers w)
  = match SaveFileTransferDetailsInTempFile
            env (layersDetails artifactoryUrl layers) with
    | Ok _ => None
    | Err e => Some e
    end.
Proof.
  intros Hnth Habs. split.
  - exists (detailOf artifactoryUrl layer). split; [| split].
    + rewrite layersDetails_nth, Hnth. reflexivity.
    + cbn. unfold layerSha256. rewrite sha256_fold.
      now rewrite (sha256_absent _ Habs).
    + reflexivity.
  - rewrite layersMap_run. cbv zeta.
    destruct (SaveFileTransferDetailsInTempFile env _); reflexivity.
Qed.

(** C5: the builder makes one transfer detail per layer, in the order of
    the layers, and the result it sets on the command counts as many
    successes as there are layers. *)
Theorem C5_one_detail_per_layer_in_order
        (artifactoryUrl : string) (layers : list ResultItem) (w : World)
        (tempFile : string) :
  SaveFileTransferDetailsInTempFile env (layersDetails artifactoryUrl layers)
  = Ok tempFile ->
  layersDetails artifactoryUrl layers = map (detailOf artifactoryUrl) layers /\
  length (layersDetails artifactoryUrl layers) = length layers /\
  (forall i, nth_error (layersDetails artifactoryUrl layers) i
             = option_map (detailOf artifactoryUrl) (nth_error layers i)) /\
  let '(err, w') := layersMapToFileTransferDetails env artifactoryUrl layers w in
  err = None /\
  exists r, GetResult (cmd w') = Some r /\
            successCount r = Z.of_nat (length layers) /\
            reader r = Some (NewContentReader tempFile "files").
Proof.
  intros Hsave. split; [| split; [| split]].
  - apply layersDetails_map.
  - apply layersDetails_length.
  - intros i. apply layersDetails_nth.
  - rewrite layersMap_run. cbv zeta. rewrite Hsave.
    split; [reflexivity |]. eexists. split; [reflexivity |].
    cbn. now rewrite layersDetails_length.
Qed.

(** C10: when a layer has more than one property of key "sha256", the
    sha256 of its transfer detail is the value of the last of them in the
    order of the properties. *)
Theorem C10_last_sha256_property_wins
        (artifactoryUrl : string) (layers : list ResultItem)
        (i : nat) (layer : ResultItem) :
  nth_error layers i = Some layer ->
  (1 < length (filter hasSha256Key (Properties layer)))%nat ->
  exists d,
    nth_error (layersDetails artifactoryUrl layers) i = Some d /\
    Sha256 d
    = Value (last (filter hasSha256Key (Properties layer)) (mkProperty "" "")).
Proof.
  intros Hnth _. exists (detailOf artifactoryUrl layer). split.
  - rewrite layersDetails_nth, Hnth. reflexivity.
  - cbn. unfold layerSha256. apply sha256_fold.
Qed.

End ManifestRun.

(** Witnesses of the manifest theorems, on the layers of [Sample]. *)
Lemma C4_absent_sha256_is_empty_witness :
  (exists d,
      nth_error (layersDetails "https://x" [Sample.layer1; Sample.layer2]) 1
      = Some d /\
      Sha256 d = "" /\
      TargetPath d = GoPath.Join ["docker-local"; "app/1.0"; "manifest.json"]) /\
  fst (layersMapToFileTransferDetails (Sample.okEnv false) "https://x"
         [Sample.layer1; Sample.layer2]
         (start (Sample.sampleCmd false true)))
  = None.
Proof.
  apply (C4_absent_sha256_is_empty (Sample.okEnv false) "https://x"
           [Sample.layer1; Sample.layer2] 1 (layer := Sample.layer2)
           (start (Sample.sampleCmd false true))).
  - reflexivity.
  - intros p [<- | []]. discriminate.
Defined.

Lemma C5_one_detail_per_layer_in_order_witness :
  length (layersDetails "https://x" [Sample.layer1; Sample.layer2; Sample.layer3])
  = 3%nat /\
  map TargetPath
      (layersDetails "https://x" [Sample.layer1; Sample.layer2; Sample.layer3])
  = ["r/p/n"; "docker-local/app/1.0/manifest.json";
     "docker-local/app/1.0/sha256__f00"] /\
  exists r,
    GetResult
      (cmd (snd (layersMapToFileTransferDetails
                   (Sample.okEnv false) "https://x"
                   [Sample.layer1; Sample.layer2; Sample.layer3]
                   (start (Sample.sampleCmd false true)))))
    = Some r /\
    successCount r = 3%Z.
Proof.
  destruct (C5_one_detail_per_layer_in_order
              (Sample.okEnv false) "https://x"
              [Sample.layer1; Sample.layer2; Sample.layer3]
              (start (Sample.sampleCmd false true))
              (tempFile := "/tmp/details.json") eq_refl)
    as [Hmap [Hlen [_ Hrun]]].
  split; [exact Hlen | split].
  - rewrite Hmap. reflexivity.
  - destruct (layersMapToFileTransferDetails _ _ _ _) as [err w'].
    destruct Hrun as [_ [r [Hr [Hc _]]]].
    exists r. split; [exact Hr | exact Hc].
Defined.

Lemma C10_last_sha256_property_wins_witness :
  exists d,
    nth_error (layersDetails "https://x" [Sample.layer1; Sample.layer3]) 1
    = Some d /\
    Sha256 d = "f00".
Proof.
  apply (C10_last_sha256_property_wins "https://x"
           [Sample.layer1; Sample.layer3] 1 (layer := Sample.layer3)).
  - reflexivity.
  - cbn. lia.
Defined.

(** ** The workflow of [Run] *)

Section RunFacts.

Variables BuildInfo ServiceManager RemoteBuilder LocalBuilder : Type.
Variable env : Env BuildInfo ServiceManager RemoteBuilder LocalBuilder.


(** A run that fails leaves the result of the command as it was. *)
Lemma failed_run_keeps_result (pc : PushCommand) (e : error) :
  runError env pc = Some e -> runCmd env pc = pc.
Proof.
  run_cases.
  all: intros; try discriminate; reflexivity.
Qed.

(** On the digest-based path a nil module with a nil error is an error of
    its own, and nothing is saved. *)
Lemma digest_path_nil_module (pc : PushCommand) :
  validateSha pc = true ->
  IsCollectBuildInfo env = Ok true ->
  (forall b m, fst (remoteBuild env b m) = (None, None)) ->
  existsb isBuild (runTrace env pc) = true ->
  runError env pc = Some moduleNilError /\
  none isSaveBuildInfo (runTrace env pc) = true.
Proof.
  intros Hv Hc Hb.
  run_cases.
  all: try (cbn; discriminate).
  all: repeat match goal with
         | H : remoteBuild env ?b ?m = _ |- _ =>
             let F := fresh in
             pose proof (Hb b m) as F; rewrite H in F; cbn in F;
             try discriminate F; clear H
         end.
  all: try congruence.
  all: intros _; split; reflexivity.
Qed.

(** In neither strategy is a module saved when [Build] gave none. *)
Lemma nil_module_never_saved (pc : PushCommand) :
  (forall b m, fst (fst (remoteBuild env b m)) = None) ->
  (forall b m, fst (fst (localBuild env b m)) = None) ->
  none isSaveBuildInfo (runTrace env pc) = true.
Proof.
  intros Hr Hl.
  run_cases.
  all: repeat match goal with
         | H : remoteBuild env ?b ?m = _ |- _ =>
             let F := fresh in
             pose proof (Hr b m) as F; rewrite H in F; cbn in F;
             try discriminate F; clear H
         | H : localBuild env ?b ?m = _ |- _ =>
             let F := fresh in
             pose proof (Hl b m) as F; rewrite H in F; cbn in F;
             try discriminate F; clear H
         end.
  all: reflexivity.
Qed.

(** With only the summary asked for, the tag-based builder that [Build]
    is called on is the one with skip-tagging set, and the manifest is made
    of the layers of the builder that this [Build] leaves. *)
Lemma tag_summary_only_builds_skip_tagged
      (pc : PushCommand) (name number repo : string) (sm : ServiceManager)
      (b : LocalBuilder) :
  preludeOk env pc false name number sm repo ->
  validateSha pc = false ->
  detailedSummary pc = true ->
  NewLocalAgentBuildInfoBuilder env (image pc) repo name number (project pc) sm
  = Ok b ->
  let built := localBuild env (localSetSkipTaggingLayers env b true) "" in
  let details := layersDetails (ArtifactoryUrl (serverDetails pc))
                               (localGetLayers env (snd built)) in
  runError env pc
  = match snd (fst built) with
    | Some e => Some e
    | None =>
        match SaveFileTransferDetailsInTempFile env details with
        | Ok _ => None
        | Err e => Some e
        end
    end.
Proof.
  intros (Hi & Hv & Hl & Hp & Hc & Hn & Hk & Hs & Hr) Hsha Hsum Hnew.
  cbv zeta.
  destruct (isDockerClient (containerManagerType pc)) eqn:Hd;
    [specialize (Hv eq_refl) | clear Hv].
  all: run_unfold; run_known; cbn [cmd trace fst snd app negb andb orb].
  all: destruct (localBuild env (localSetSkipTaggingLayers env b true) "")
    as [[m [e |]] b']; cbn [cmd trace fst snd app]; [reflexivity |].
  all: destruct (SaveFileTransferDetailsInTempFile env _); reflexivity.
Qed.

(** With build-info collection and the summary both asked for and the
    module saved, the manifest is made of the layers of the builder that
    the one [Build] of the build-info collection
    leaves: digest-based path. *)
Lemma digest_summary_shares_layers
      (pc : PushCommand) (name number repo sha : string) (sm : ServiceManager)
      (b b' : RemoteBuilder) (m : BuildInfo) :
  preludeOk env pc true name number sm repo ->
  validateSha pc = true ->
  detailedSummary pc = true ->
  Id env (image pc) = Ok sha ->
  NewRemoteAgentBuildInfoBuilder env (image pc) repo name number (project pc)
                                 sm sha = Ok b ->
  SaveBuildGeneralDetails env name number (project pc) = None ->
  remoteBuild env b (module pc) = ((Some m, None), b') ->
  SaveBuildInfo env name number (project pc) m = None ->
  buildCount (runTrace env pc) = 1%nat /\
  last (runTrace env pc) EvInit
  = EvSaveFileTransferDetails
      (layersDetails (ArtifactoryUrl (serverDetails pc))
                     (remoteGetLayers env b')).
Proof.
  intros (Hi & Hv & Hl & Hp & Hc & Hn & Hk & Hs & Hr) Hsha Hsum Hid Hnew
         Hgen Hbuild Hsave.
  destruct (isDockerClient (containerManagerType pc)) eqn:Hd;
    [specialize (Hv eq_refl) | clear Hv].
  all: run_unfold; run_known; cbn [cmd trace fst snd app negb andb orb].
  all: run_known; cbn [cmd trace fst snd app negb andb orb].
  all: destruct (SaveFileTransferDetailsInTempFile env _);
    split; reflexivity.
Qed.

(** The same on the tag-based path. *)
Lemma tag_summary_shares_layers
      (pc : PushCommand) (name number repo : string) (sm : ServiceManager)
      (b b' : LocalBuilder) (m : BuildInfo) :
  preludeOk env pc true name number sm repo ->
  validateSha pc = false ->
  detailedSummary pc = true ->
  NewLocalAgentBuildInfoBuilder env (image pc) repo name number (project pc) sm
  = Ok b ->
  SaveBuildGeneralDetails env name number (project pc) = None ->
  localBuild env b (module pc) = ((Some m, None), b') ->
  SaveBuildInfo env name number (project pc) m = None ->
  buildCount (runTrace env pc) = 1%nat /\
  none isSetSkipTaggingLayers (runTrace env pc) = true /\
  last (runTrace env pc) EvInit
  = EvSaveFileTransferDetails
      (layersDetails (ArtifactoryUrl (serverDetails pc))
                     (localGetLayers env b')).
Proof.
  intros (Hi & Hv & Hl & Hp & Hc & Hn & Hk & Hs & Hr) Hsha Hsum Hnew
         Hgen Hbuild Hsave.
  destruct (isDockerClient (containerManagerType pc)) eqn:Hd;
    [specialize (Hv eq_refl) | clear Hv].
  all: run_unfold; run_known; cbn [cmd trace fst snd app negb andb orb].
  all: run_known; cbn [cmd trace fst snd app negb andb orb].
  all: destruct (SaveFileTransferDetailsInTempFile env _);
    repeat split; reflexivity.
Qed.


(** C6: with collectBuildInfo false and detailedSummary true on the
    tag-based path, every [Build] of the tag resolver comes right after
    [SetSkipTaggingLayers(true)], and it is called so once the builder is
    made; with collectBuildInfo true [SetSkipTaggingLayers] is never
    called; on the digest-based path it is never called, whatever the
    flags. *)
Theorem C6_skip_tagging_only_for_summary (pc : PushCommand) :
  (IsCollectBuildInfo env = Ok false ->
   detailedSummary pc = true ->
   validateSha pc = false ->
   tagBuildsSkipTagging None (runTrace env pc) = true /\
   none isSetSkipTaggingLayersFalse (runTrace env pc) = true /\
   (existsb isNewBuilder (runTrace env pc) = true ->
    (forall repo name number sm e,
        NewLocalAgentBuildInfoBuilder env (image pc) repo name number
          (project pc) sm <> Err e) ->
    skipThenBuild (runTrace env pc) = true /\
    buildCount (runTrace env pc) = 1%nat)) /\
  (IsCollectBuildInfo env = Ok true ->
   none isSetSkipTaggingLayers (runTrace env pc) = true) /\
  (validateSha pc = true ->
   none isSetSkipTaggingLayers (runTrace env pc) = true).
Proof.
  split; [| split].
  - intros Hc Hs Hv.
    run_cases.
    all: split; [reflexivity | split; [reflexivity |]].
    all: cbn; try discriminate.
    all: intros _ Hnew;
      first [ split; reflexivity | exfalso; eapply Hnew; eassumption ].
  - intros Hc. run_cases. all: reflexivity.
  - intros Hv. run_cases. all: reflexivity.
Qed.




End RunFacts.

(** ** Concrete runs *)

(** C1: on the tag-based path, with build-info collection asked for, a
    [Build] that answers a nil module and a nil error makes [Run] return
    nil, not an error: the guard returns [err], which is nil there.  The
    module is not saved, and the detailed summary that was asked for is not
    made either. *)
Theorem C1_tag_path_nil_module_returns_nil :
  validateSha (Sample.sampleCmd false true) = false /\
  IsCollectBuildInfo Sample.nilModuleEnv = Ok true /\
  fst (localBuild Sample.nilModuleEnv (false, []) "m") = (None, None) /\
  runError Sample.nilModuleEnv (Sample.sampleCmd false true) = None /\
  last (runTrace Sample.nilModuleEnv (Sample.sampleCmd false true)) EvInit
  = EvBuild Tag "m" /\
  none isSaveBuildInfo
       (runTrace Sample.nilModuleEnv (Sample.sampleCmd false true)) = true /\
  GetResult (runCmd Sample.nilModuleEnv (Sample.sampleCmd false true)) = None /\
  runError Sample.nilModuleEnv (Sample.sampleCmd true true)
  = Some moduleNilError.
Proof. repeat split. Qed.



Lemma C6_skip_tagging_only_for_summary_witness :
  (tagBuildsSkipTagging
     None (runTrace (Sample.okEnv false) (Sample.sampleCmd false true)) = true /\
   skipThenBuild
     (runTrace (Sample.okEnv false) (Sample.sampleCmd false true)) = true) /\
  none isSetSkipTaggingLayers
       (runTrace (Sample.okEnv true) (Sample.sampleCmd false true)) = true /\
  none isSetSkipTaggingLayers
       (runTrace (Sample.okEnv false) (Sample.sampleCmd true true)) = true.
Proof.
  split; [| split].
  - destruct (C6_skip_tagging_only_for_summary
                (Sample.okEnv false) (Sample.sampleCmd false true))
      as [H _].
    destruct (H eq_refl eq_refl eq_refl) as [A [_ B]].
    split; [exact A |].
    apply B; [reflexivity | intros; discriminate].
  - destruct (C6_skip_tagging_only_for_summary
                (Sample.okEnv true) (Sample.sampleCmd false true))
      as [_ [H _]].
    apply H. reflexivity.
  - destruct (C6_skip_tagging_only_for_summary
                (Sample.okEnv false) (Sample.sampleCmd true true))
      as [_ [_ H]].
    apply H. reflexivity.
Defined.






(** ** The whole of [Run]: order, failures, effect on the command *)

Lemma ascending_nth (l : list nat) :
  ascending l = true ->
  forall i j a b,
    (i < j)%nat -> nth_error l i = Some a -> nth_error l j = Some b ->
    (a < b)%nat.
Proof.
  induction l as [| x l IH]; intros Hasc i j a b Hij Hi Hj.
  - destruct i; discriminate.
  - cbn [ascending] in Hasc. apply andb_prop in Hasc as [Hx Hl].
    destruct j as [| j]; [lia |].
    destruct i as [| i].
    + cbn in Hi, Hj. injection Hi as <-.
      rewrite forallb_forall in Hx.
      apply Nat.ltb_lt, Hx. eapply nth_error_In; eassumption.
    + cbn in Hi, Hj. apply (IH Hl i j a b); [lia | exact Hi | exact Hj].
Qed.

Section RunExtra.

Variables BuildInfo ServiceManager RemoteBuilder LocalBuilder : Type.
Variable env : Env BuildInfo ServiceManager RemoteBuilder LocalBuilder.

Lemma trace_ascending (pc : PushCommand) :
  ascending (map place (runTrace env pc)) = true.
Proof. run_cases. all: reflexivity. Qed.

(** X1: the calls of one run come in the order in which [Run] writes them,
    on both paths and whatever is answered: of two calls of a run the
    earlier one has the smaller place, so no call of one kind is made twice
    (nothing is retried), login comes before the push, the general details
    are saved before [Build], [Build] comes before [SaveBuildInfo], and
    both before the layers are read and the manifest is written. *)
Theorem X1_calls_in_source_order (pc : PushCommand) (i j : nat) (a b : Event) :
  (i < j)%nat ->
  nth_error (runTrace env pc) i = Some a ->
  nth_error (runTrace env pc) j = Some b ->
  (place a < place b)%nat.
Proof.
  intros Hij Ha Hb.
  apply (@ascending_nth (map place (runTrace env pc)) (trace_ascending pc) i j).
  - exact Hij.
  - rewrite nth_error_map, Ha. reflexivity.
  - rewrite nth_error_map, Hb. reflexivity.
Qed.

(** X2: when a call of the first part of [Run] (init, the API version
    check, login, the push, the build configuration, the service manager,
    the repository, the digest query) answers an error, [Run] returns that
    very error, the call is the last one made, and the command is left as it
    was. *)
Theorem X2_prelude_failure_returned (pc : PushCommand) (e : Event) (err : error) :
  In e (runTrace env pc) ->
  preludeAnswer env pc e = Some (Some err) ->
  runError env pc = Some err /\
  last (runTrace env pc) EvInit = e /\
  runCmd env pc = pc.
Proof.
  intros Hin Hans. revert Hin.
  run_cases.
  all: cbn [In]; intros Hin.
  all: repeat (destruct Hin as [<- | Hin];
               [cbn [preludeAnswer errorOf] in Hans;
                repeat match goal with
                       | H : ?l = _ |- _ =>
                           tryif constr_eq H Hans then fail
                           else match type of Hans with
                                | context [l] => rewrite H in Hans
                                end
                       end;
                cbn [errorOf] in Hans;
                try discriminate Hans |]).
  all: try contradiction.
  all: injection Hans as <-; repeat split; reflexivity.
Qed.

(** X3: the Docker API version is checked only for the Docker client, and
    for it always once init went well; when the check fails neither login
    nor push is made. *)
Theorem X3_api_version_only_for_docker (pc : PushCommand) :
  (existsb isValidateClientApiVersion (runTrace env pc) = true ->
   containerManagerType pc = DockerClient) /\
  (containerManagerType pc = DockerClient -> init env = None ->
   existsb isValidateClientApiVersion (runTrace env pc) = true) /\
  (forall err,
      containerManagerType pc = DockerClient -> init env = None ->
      ValidateClientApiVersion env = Some err ->
      runError env pc = Some err /\
      none isPerformLogin (runTrace env pc) = true /\
      none isRunNativeCmd (runTrace env pc) = true).
Proof.
  split; [| split].
  - destruct (containerManagerType pc) eqn:Ht; [reflexivity |].
    run_cases. all: cbn; discriminate.
  - intros Ht Hi. run_cases.
    all: try match goal with
             | H : isDockerClient _ = _ |- _ => cbn in H; discriminate H
             end.
    all: reflexivity.
  - intros err Ht Hi Hv. run_cases.
    all: try match goal with
             | H : isDockerClient _ = _ |- _ => cbn in H; discriminate H
             end.
    all: repeat split; reflexivity.
Qed.

(** X4: nothing is saved to the build-info store unless build-info
    collection is on: a run that saves general details or a module has read
    the collect flag as true. *)
Theorem X4_persistence_only_when_collecting (pc : PushCommand) :
  existsb isPersistence (runTrace env pc) = true ->
  IsCollectBuildInfo env = Ok true.
Proof.
  run_cases. all: cbn; try discriminate; intros _; reflexivity.
Qed.

(** X5: without the detailed summary no layers are read, no manifest is
    written, and the command is left as it was, whatever else happens. *)
Theorem X5_no_summary_no_manifest (pc : PushCommand) :
  detailedSummary pc = false ->
  none isGetLayers (runTrace env pc) = true /\
  none isManifestWrite (runTrace env pc) = true /\
  runCmd env pc = pc.
Proof.
  intros Hs. run_cases. all: repeat split; reflexivity.
Qed.

(** X6: the effect of [Run] on the command: either it is left as it was, or
    [Run] returned nil with the detailed summary on, its last call wrote the
    manifest, and only the result has changed: it reads the file that the
    serializer answered under the key "files" and counts the details
    written. *)
Theorem X6_result_matches_manifest (pc : PushCommand) :
  runCmd env pc = pc \/
  (runError env pc = None /\
   detailedSummary pc = true /\
   exists details tempFile,
     last (runTrace env pc) EvInit = EvSaveFileTransferDetails details /\
     SaveFileTransferDetailsInTempFile env details = Ok tempFile /\
     runCmd env pc
     = SetResult pc (Some (mkResult (Some (NewContentReader tempFile "files"))
                                    (Z.of_nat (length details))))).
Proof.
  destruct (detailedSummary pc) eqn:Hs.
  - run_cases.
    all: try (left; reflexivity).
    all: right; split; [reflexivity | split; [reflexivity |]].
    all: eexists; eexists; split; [reflexivity | split; [eassumption | reflexivity]].
  - left. run_cases. all: reflexivity.
Qed.

End RunExtra.

Section RunFailures.

Variables BuildInfo ServiceManager RemoteBuilder LocalBuilder : Type.
Variable env : Env BuildInfo ServiceManager RemoteBuilder LocalBuilder.






(** X12: [Build] is asked for the module of the build configuration when
    build-info collection is on, and for the empty module name when only
    the detailed summary is asked for. *)
Theorem X12_build_module_name (pc : PushCommand) (collect : bool) :
  IsCollectBuildInfo env = Ok collect ->
  buildsNamed (if collect then module pc else "") (runTrace env pc) = true.
Proof.
  intros Hc. destruct collect.
  all: run_cases.
  all: cbn; rewrite ?String.eqb_refl; reflexivity.
Qed.

(** X13: when the manifest is handed to the serializer and the serializer
    fails, [Run] returns its error as it is on both paths and the command
    keeps the result it had. *)
Theorem X13_serializer_failure
        (pc : PushCommand) (details : list FileTransferDetails) (e : error) :
  In (EvSaveFileTransferDetails details) (runTrace env pc) ->
  SaveFileTransferDetailsInTempFile env details = Err e ->
  runError env pc = Some e /\
  last (runTrace env pc) EvInit = EvSaveFileTransferDetails details /\
  runCmd env pc = pc.
Proof.
  intros Hin Hs. revert Hin.
  run_cases.
  all: cbn [In]; intros Hin.
  all: repeat (destruct Hin as [Hin | Hin];
               [try discriminate Hin; injection Hin as <- |]).
  all: try contradiction.
  all: try congruence.
  all: repeat split; congruence.
Qed.

(** X14: a result that the command still carries from before has no part
    in a run: the error returned and the calls made are the same, and so is
    the command at the end but for the result. *)
Theorem X14_previous_result_ignored (pc : PushCommand) (r : option Result) :
  runError env (SetResult pc r) = runError env pc /\
  runTrace env (SetResult pc r) = runTrace env pc /\
  SetResult (runCmd env (SetResult pc r)) None
  = SetResult (runCmd env pc) None /\
  (runCmd env pc <> pc -> runCmd env (SetResult pc r) = runCmd env pc).
Proof.
  unfold runError, runCmd, runTrace.
  destruct (Run env (start pc)) as [e w] eqn:E1.
  destruct (Run env (start (SetResult pc r))) as [e' w'] eqn:E2.
  revert E1 E2.
  destruct pc as [t img params sd prj md vs th ds res0].
  run_unfold. unfold SetResult.
  cbn [containerManagerType image cmdParams serverDetails project module
       validateSha threads detailedSummary result cmd trace fst snd app].
  repeat (run_split;
          cbn [containerManagerType image cmdParams serverDetails project
               module validateSha threads detailedSummary result
               cmd trace fst snd app negb andb orb];
          try congruence).
  all: intros E1 E2; injection E1 as <- <-; injection E2 as <- <-.
  all: cbn [fst snd cmd trace].
  all: split; [reflexivity | split; [reflexivity | split; [reflexivity |]]].
  all: intros H; try reflexivity; exfalso; apply H; reflexivity.
Qed.

(** X15: a run on the digest-based path with only the detailed summary
    asked for, in which every call goes well: [Build] is called once, for
    the empty module name, and the module it answers is not looked at (it
    may be nil); nothing is saved; and the result counts the layers that
    the builder has after this [Build]. *)
Theorem X15_digest_summary_only
        (pc : PushCommand) (name number repo sha tempFile : string)
        (sm : ServiceManager) (b b' : RemoteBuilder) (m : option BuildInfo) :
  preludeOk env pc false name number sm repo ->
  validateSha pc = true ->
  detailedSummary pc = true ->
  Id env (image pc) = Ok sha ->
  NewRemoteAgentBuildInfoBuilder env (image pc) repo name number (project pc)
                                 sm sha = Ok b ->
  remoteBuild env b "" = ((m, None), b') ->
  SaveFileTransferDetailsInTempFile
    env (layersDetails (ArtifactoryUrl (serverDetails pc))
                       (remoteGetLayers env b')) = Ok tempFile ->
  runError env pc = None /\
  GetResult (runCmd env pc)
  = Some (mkResult (Some (NewContentReader tempFile "files"))
                   (Z.of_nat (length (remoteGetLayers env b')))) /\
  buildCount (runTrace env pc) = 1%nat /\
  none isPersistence (runTrace env pc) = true.
Proof.
  intros (Hi & Hv & Hl & Hp & Hc & Hn & Hk & Hs & Hr) Hsha Hsum Hid Hnew
         Hbuild Hsave.
  destruct (isDockerClient (containerManagerType pc)) eqn:Hd;
    [specialize (Hv eq_refl) | clear Hv].
  all: run_unfold; run_known; cbn [cmd trace fst snd app negb andb orb].
  all: run_known; cbn [cmd trace fst snd app negb andb orb].
  all: run_known; cbn [cmd trace fst snd app negb andb orb].
  all: rewrite layersDetails_length.
  all: repeat split; reflexivity.
Qed.

(** X16: the same on the tag-based path: the one [Build] is called on the
    builder with skip-tagging set, and the result counts the layers that
    this builder has afterwards. *)
Theorem X16_tag_summary_only
        (pc : PushCommand) (name number repo tempFile : string)
        (sm : ServiceManager) (b b' : LocalBuilder) (m : option BuildInfo) :
  preludeOk env pc false name number sm repo ->
  validateSha pc = false ->
  detailedSummary pc = true ->
  NewLocalAgentBuildInfoBuilder env (image pc) repo name number (project pc) sm
  = Ok b ->
  localBuild env (localSetSkipTaggingLayers env b true) "" = ((m, None), b') ->
  SaveFileTransferDetailsInTempFile
    env (layersDetails (ArtifactoryUrl (serverDetails pc))
                       (localGetLayers env b')) = Ok tempFile ->
  runError env pc = None /\
  GetResult (runCmd env pc)
  = Some (mkResult (Some (NewContentReader tempFile "files"))
                   (Z.of_nat (length (localGetLayers env b')))) /\
  buildCount (runTrace env pc) = 1%nat /\
  none isPersistence (runTrace env pc) = true.
Proof.
  intros (Hi & Hv & Hl & Hp & Hc & Hn & Hk & Hs & Hr) Hsha Hsum Hnew
         Hbuild Hsave.
  destruct (isDockerClient (containerManagerType pc)) eqn:Hd;
    [specialize (Hv eq_refl) | clear Hv].
  all: run_unfold; run_known; cbn [cmd trace fst snd app negb andb orb].
  all: run_known; cbn [cmd trace fst snd app negb andb orb].
  all: run_known; cbn [cmd trace fst snd app negb andb orb].
  all: rewrite layersDetails_length.
  all: repeat split; reflexivity.
Qed.

End RunFailures.

(** ** The target path of a layer *)

Lemma list_ascii_of_string_app (a b : string) :
  list_ascii_of_string (a ++ b)%string
  = list_ascii_of_string a ++ list_ascii_of_string b.
Proof.
  induction a as [| c a IH]; [reflexivity |].
  cbn. now rewrite IH.
Qed.

Lemma concat_glue (segs : list string) :
  list_ascii_of_string (String.concat "/" segs)
  = glue (map list_ascii_of_string segs).
Proof.
  induction segs as [| s [| s' rest] IH]; [reflexivity | reflexivity |].
  change (String.concat "/" (s :: s' :: rest))
    with (s ++ "/" ++ String.concat "/" (s' :: rest))%string.
  rewrite !list_ascii_of_string_app, IH. reflexivity.
Qed.

Lemma copy_elem_segment (s tail ro : list ascii) :
  forallb (fun x => negb (GoPath.is_slash x)) s = true ->
  match tail with [] => True | c :: _ => GoPath.is_slash c = true end ->
  GoPath.copy_elem (s ++ tail) ro = (tail, rev s ++ ro).
Proof.
  revert ro. induction s as [| c s IH]; intros ro Hs Ht.
  - destruct tail as [| c t]; [reflexivity |].
    cbn. now rewrite Ht.
  - cbn in Hs. apply andb_prop in Hs as [Hc Hs].
    cbn [app GoPath.copy_elem].
    destruct (GoPath.is_slash c); [discriminate |].
    rewrite (IH (c :: ro) Hs Ht). cbn [rev]. now rewrite <- app_assoc.
Qed.

Lemma plainChars_inv (s : list ascii) :
  plainChars s = true ->
  exists c t, s = c :: t /\ GoPath.is_dot c = false /\
              GoPath.is_slash c = false /\
              forallb (fun x => negb (GoPath.is_slash x)) s = true.
Proof.
  destruct s as [| c t]; [discriminate |].
  unfold plainChars. intros H. apply andb_prop in H as [Hd Hs].
  exists c, t. repeat split.
  - now destruct (GoPath.is_dot c).
  - cbn in Hs. now destruct (GoPath.is_slash c).
  - exact Hs.
Qed.

(** One turn of [Clean]'s loop on a plain segment copies it, after a slash
    when the buffer is not empty. *)
Lemma clean_loop_segment (fuel : nat) (s tail ro : list ascii) :
  plainChars s = true ->
  match tail with [] => True | c :: _ => GoPath.is_slash c = true end ->
  GoPath.clean_loop (S fuel) false 0 (s ++ tail) ro
  = GoPath.clean_loop fuel false 0 tail (rev s ++ sep ro).
Proof.
  intros Hs Ht.
  destruct (plainChars_inv s Hs) as (c & t & -> & Hd & Hsl & Hall).
  cbn [GoPath.clean_loop app]. rewrite Hsl, Hd. cbn [andb negb orb].
  change (c :: t ++ tail) with ((c :: t) ++ tail).
  rewrite (@copy_elem_segment (c :: t) tail _ Hall Ht).
  reflexivity.
Qed.

Lemma sep_nonempty (s ro : list ascii) :
  s <> [] -> sep (rev s ++ ro) = GoPath.slash :: rev s ++ ro.
Proof.
  intros Hs. unfold sep.
  destruct (rev s ++ ro) as [| x l] eqn:E; [| reflexivity].
  apply app_eq_nil in E as [E _].
  apply (f_equal (@rev ascii)) in E. rewrite rev_involutive in E.
  contradiction.
Qed.

(** [Clean]'s loop leaves a path of plain segments as it is. *)
Lemma clean_loop_plain (segs : list (list ascii)) :
  segs <> [] ->
  forallb plainChars segs = true ->
  forall fuel ro,
    (2 * length segs <= fuel)%nat ->
    GoPath.clean_loop fuel false 0 (glue segs) ro = rev (glue segs) ++ sep ro.
Proof.
  induction segs as [| s rest IH]; intros Hne Hall fuel ro Hfuel;
    [congruence |].
  cbn [forallb] in Hall. apply andb_prop in Hall as [Hs Hrest].
  destruct fuel as [| fuel]; [cbn in Hfuel; lia |].
  destruct rest as [| s' rest'].
  - cbn [glue]. rewrite <- (app_nil_r s) at 1.
    rewrite (@clean_loop_segment fuel s [] ro Hs I).
    destruct fuel; reflexivity.
  - change (glue (s :: s' :: rest'))
      with (s ++ GoPath.slash :: glue (s' :: rest')).
    cbn [length] in Hfuel.
    rewrite (@clean_loop_segment fuel s (GoPath.slash :: glue (s' :: rest'))
               ro Hs eq_refl).
    destruct fuel as [| fuel]; [lia |].
    cbn [GoPath.clean_loop]. change (GoPath.is_slash GoPath.slash) with true.
    cbn iota.
    assert (Hf : (2 * length (s' :: rest') <= fuel)%nat) by (cbn [length]; lia).
    assert (Hn : s' :: rest' <> []) by discriminate.
    rewrite (IH Hn Hrest fuel _ Hf).
    assert (Hsne : s <> []) by (destruct s; [discriminate | discriminate]).
    rewrite (@sep_nonempty s (sep ro) Hsne).
    rewrite rev_app_distr. cbn [rev]. rewrite <- !app_assoc. reflexivity.
Qed.

Lemma glue_length (segs : list (list ascii)) :
  forallb plainChars segs = true ->
  (2 * length segs <= S (length (glue segs)))%nat.
Proof.
  induction segs as [| s [| s' rest] IH]; intros Hall; [cbn; lia | |].
  - cbn in *. destruct s; [discriminate | cbn; lia].
  - cbn [forallb] in Hall. apply andb_prop in Hall as [Hs Hrest].
    specialize (IH Hrest).
    change (glue (s :: s' :: rest))
      with (s ++ GoPath.slash :: glue (s' :: rest)).
    cbn [length] in *.
    rewrite length_app. cbn [length].
    destruct s; [discriminate | cbn [length]; lia].
Qed.

Lemma glue_head (segs : list (list ascii)) :
  segs <> [] -> forallb plainChars segs = true ->
  exists c t, glue segs = c :: t /\ GoPath.is_slash c = false.
Proof.
  destruct segs as [| s rest]; intros Hne Hall; [congruence |].
  cbn [forallb] in Hall. apply andb_prop in Hall as [Hs _].
  destruct (plainChars_inv s Hs) as (c & t & -> & _ & Hsl & _).
  destruct rest; cbn [glue app]; eauto.
Qed.

(** [Clean] leaves a plain path as it is. *)
Lemma Clean_plainPath (s : string) :
  plainPath s -> GoPath.Clean s = s.
Proof.
  intros (segs & Hne & Hall & ->).
  assert (Hall' : forallb plainChars (map list_ascii_of_string segs) = true).
  { rewrite forallb_forall in *. intros x Hx.
    apply in_map_iff in Hx as (y & <- & Hy). apply (Hall y Hy). }
  assert (Hne' : map list_ascii_of_string segs <> []).
  { destruct segs; [congruence | discriminate]. }
  unfold GoPath.Clean. rewrite concat_glue.
  destruct (@glue_head _ Hne' Hall') as (c & t & Hg & Hsl).
  rewrite Hg at 1. rewrite Hsl. cbn iota. rewrite <- Hg.
  rewrite (@clean_loop_plain _ Hne' Hall' _ [] (@glue_length _ Hall')).
  unfold sep. cbn [length Nat.eqb negb]. rewrite app_nil_r.
  destruct (rev (glue (map list_ascii_of_string segs))) as [| x l] eqn:E.
  - apply (f_equal (@rev ascii)) in E. rewrite rev_involutive, Hg in E.
    discriminate.
  - rewrite <- E, rev_involutive, <- concat_glue.
    apply string_of_list_ascii_of_string.
Qed.

Lemma concat_app (a b : list string) :
  a <> [] -> b <> [] ->
  String.concat "/" (a ++ b)
  = (String.concat "/" a ++ "/" ++ String.concat "/" b)%string.
Proof.
  intros Ha Hb. induction a as [| x [| y a] IH]; [congruence | |].
  - destruct b; [congruence | reflexivity].
  - change (String.concat "/" ((x :: y :: a) ++ b))
      with (x ++ "/" ++ String.concat "/" ((y :: a) ++ b))%string.
    rewrite (IH ltac:(discriminate)).
    change (String.concat "/" (x :: y :: a))
      with (x ++ "/" ++ String.concat "/" (y :: a))%string.
    rewrite <- (string_of_list_ascii_of_string
                  (x ++ "/" ++ String.concat "/" (y :: a) ++ "/" ++ _)%string).
    rewrite <- (string_of_list_ascii_of_string
                  ((x ++ "/" ++ String.concat "/" (y :: a)) ++ "/" ++ _)%string).
    f_equal. rewrite !list_ascii_of_string_app, <- !app_assoc. reflexivity.
Qed.

Lemma plainPath_app (a b : string) :
  plainPath a -> plainPath b -> plainPath (a ++ "/" ++ b)%string.
Proof.
  intros (sa & Ha & Fa & ->) (sb & Hb & Fb & ->).
  exists (sa ++ sb). split; [| split].
  - destruct sa; [congruence | discriminate].
  - rewrite forallb_app, Fa, Fb. reflexivity.
  - symmetry. now apply concat_app.
Qed.

Lemma plainPath_nonempty (s : string) : plainPath s -> String.eqb s "" = false.
Proof.
  intros (segs & Hne & Hall & ->).
  destruct segs as [| x rest]; [congruence |].
  cbn [forallb] in Hall. apply andb_prop in Hall as [Hx _].
  unfold plainSegment in Hx.
  destruct x as [| c x]; [discriminate |].
  destruct rest; reflexivity.
Qed.

(** [Join] of three plain paths puts one slash between them. *)
Lemma Join_plain (r p n : string) :
  plainPath r -> plainPath p -> plainPath n ->
  GoPath.Join [r; p; n] = (r ++ "/" ++ p ++ "/" ++ n)%string.
Proof.
  intros Hr Hp Hn.
  pose proof (@plainPath_nonempty r Hr) as Er.
  unfold GoPath.Join. cbn [fold_left].
  destruct r as [| c r]; [discriminate |].
  cbn [String.length Nat.add Nat.eqb].
  change (GoPath.join_step "" (String c r)) with (String c r).
  change (GoPath.join_step (String c r) p)
    with ((String c r ++ "/") ++ p)%string.
  change (GoPath.join_step ((String c r ++ "/") ++ p) n)
    with ((((String c r ++ "/") ++ p) ++ "/") ++ n)%string.
  assert (Eq : ((((String c r ++ "/") ++ p) ++ "/") ++ n)%string
               = (String c r ++ "/" ++ p ++ "/" ++ n)%string).
  { rewrite <- (string_of_list_ascii_of_string
                  ((((String c r ++ "/") ++ p) ++ "/") ++ n)%string).
    rewrite <- (string_of_list_ascii_of_string
                  (String c r ++ "/" ++ p ++ "/" ++ n)%string).
    f_equal. rewrite !list_ascii_of_string_app, <- !app_assoc. reflexivity. }
  rewrite Eq. apply Clean_plainPath.
  apply plainPath_app; [exact Hr |]. apply plainPath_app; assumption.
Qed.

(** X17: the manifest of a list of layers put together is the manifest of
    the first part followed by that of the second (so an empty list gives
    an empty manifest), and every detail carries the URL that was given. *)
Theorem X17_manifest_of_append
        (artifactoryUrl : string) (layers1 layers2 : list ResultItem) :
  layersDetails artifactoryUrl (layers1 ++ layers2)
  = layersDetails artifactoryUrl layers1 ++ layersDetails artifactoryUrl layers2 /\
  layersDetails artifactoryUrl [] = [] /\
  Forall (fun d => RtUrl d = artifactoryUrl)
         (layersDetails artifactoryUrl (layers1 ++ layers2)).
Proof.
  split; [| split].
  - rewrite !layersDetails_map. apply map_app.
  - reflexivity.
  - rewrite layersDetails_map. apply Forall_forall.
    intros d Hd. apply in_map_iff in Hd as (l & <- & _). reflexivity.
Qed.

(** X18: when the repository, the path and the name of every layer are
    plain paths (segments without slash that are not empty and do not start
    with a dot, one slash between them), the target path of each detail is
    repository, path and name with one slash between them. *)
Theorem X18_target_path_of_plain_layers
        (artifactoryUrl : string) (layers : list ResultItem) :
  Forall (fun l => plainPath (Repo l) /\ plainPath (Path l) /\ plainPath (Name l))
         layers ->
  map TargetPath (layersDetails artifactoryUrl layers)
  = map (fun l => (Repo l ++ "/" ++ Path l ++ "/" ++ Name l)%string) layers.
Proof.
  intros Hall. rewrite layersDetails_map, map_map.
  apply map_ext_in. intros l Hl.
  rewrite Forall_forall in Hall. destruct (Hall l Hl) as (Hr & Hp & Hn).
  cbn [detailOf TargetPath]. now apply Join_plain.
Qed.

Section DigestSuccess.

Variables BuildInfo ServiceManager RemoteBuilder LocalBuilder : Type.
Variable env : Env BuildInfo ServiceManager RemoteBuilder LocalBuilder.

(** X19: on the digest-based path a nil return keeps what was asked for:
    with build-info collection on, the general details and the module were
    saved; with the detailed summary on, the manifest was written and the
    command has a result that reads it under the key "files". *)
Theorem X19_digest_success_delivers (pc : PushCommand) :
  validateSha pc = true ->
  runError env pc = None ->
  (IsCollectBuildInfo env = Ok true ->
   existsb isSaveBuildGeneralDetails (runTrace env pc) = true /\
   existsb isSaveBuildInfo (runTrace env pc) = true) /\
  (detailedSummary pc = true ->
   existsb isManifestWrite (runTrace env pc) = true /\
   exists r tempFile,
     GetResult (runCmd env pc) = Some r /\
     reader r = Some (NewContentReader tempFile "files")).
Proof.
  intros Hv Hnil. split.
  - intros Hc. revert Hnil. run_cases.
    all: intros; try discriminate; split; reflexivity.
  - intros Hs. revert Hnil. run_cases.
    all: try match goal with
             | H : negb ?a && false = true |- _ => destruct a; discriminate H
             end.
    all: intros; try discriminate.
    all: split; [reflexivity |].
    all: eexists; eexists; split; reflexivity.
Qed.

End DigestSuccess.

(** ** The further properties on concrete runs *)

Lemma X1_calls_in_source_order_witness :
  (place EvPerformLogin < place (EvRunNativeCmd ["push"; "registry/app:1.0"]))%nat /\
  (place EvSaveBuildGeneralDetails < place (EvBuild Digest "m"))%nat.
Proof.
  split.
  - apply (@X1_calls_in_source_order _ _ _ _ (Cases.fine true)
             (Sample.sampleCmd true true) 2 3);
      [lia | reflexivity | reflexivity].
  - apply (@X1_calls_in_source_order _ _ _ _ (Cases.fine true)
             (Sample.sampleCmd true true) 11 12);
      [lia | reflexivity | reflexivity].
Defined.

Lemma X2_prelude_failure_returned_witness :
  runError Cases.loginFails (Sample.sampleCmd false true) = Some Cases.loginError /\
  last (runTrace Cases.loginFails (Sample.sampleCmd false true)) EvInit
  = EvPerformLogin /\
  runCmd Cases.loginFails (Sample.sampleCmd false true)
  = Sample.sampleCmd false true.
Proof.
  apply (@X2_prelude_failure_returned _ _ _ _ Cases.loginFails
           (Sample.sampleCmd false true) EvPerformLogin Cases.loginError).
  - cbn. right. right. left. reflexivity.
  - reflexivity.
Defined.

Lemma X3_api_version_only_for_docker_witness :
  containerManagerType (Sample.sampleCmd false true) = DockerClient /\
  existsb isValidateClientApiVersion
          (runTrace (Cases.fine true) (Sample.sampleCmd false true)) = true /\
  (runError Cases.versionFails (Sample.sampleCmd false true)
   = Some Cases.versionError /\
   none isPerformLogin
        (runTrace Cases.versionFails (Sample.sampleCmd false true)) = true /\
   none isRunNativeCmd
        (runTrace Cases.versionFails (Sample.sampleCmd false true)) = true).
Proof.
  destruct (@X3_api_version_only_for_docker _ _ _ _ (Cases.fine true)
              (Sample.sampleCmd false true)) as [A [B _]].
  destruct (@X3_api_version_only_for_docker _ _ _ _ Cases.versionFails
              (Sample.sampleCmd false true)) as [_ [_ C]].
  split; [apply A; reflexivity | split; [apply B; reflexivity |]].
  apply C; reflexivity.
Defined.

Lemma X4_persistence_only_when_collecting_witness :
  IsCollectBuildInfo (Cases.fine true) = Ok true.
Proof.
  apply (@X4_persistence_only_when_collecting _ _ _ _ (Cases.fine true)
           (Sample.sampleCmd false false)).
  reflexivity.
Defined.

Lemma X5_no_summary_no_manifest_witness :
  none isGetLayers (runTrace (Cases.fine true) (Sample.sampleCmd true false))
  = true /\
  none isManifestWrite (runTrace (Cases.fine true) (Sample.sampleCmd true false))
  = true /\
  runCmd (Cases.fine true) (Sample.sampleCmd true false)
  = Sample.sampleCmd true false.
Proof.
  apply (@X5_no_summary_no_manifest _ _ _ _ (Cases.fine true)
           (Sample.sampleCmd true false)).
  reflexivity.
Defined.






Lemma X12_build_module_name_witness :
  buildsNamed "m" (runTrace (Cases.fine true) (Sample.sampleCmd true true))
  = true /\
  buildsNamed "" (runTrace (Cases.fine false) (Sample.sampleCmd true true))
  = true.
Proof.
  split.
  - apply (@X12_build_module_name _ _ _ _ (Cases.fine true)
             (Sample.sampleCmd true true) true).
    reflexivity.
  - apply (@X12_build_module_name _ _ _ _ (Cases.fine false)
             (Sample.sampleCmd true true) false).
    reflexivity.
Defined.

Lemma X13_serializer_failure_witness :
  runError Cases.serializerFails (Sample.sampleCmd false true)
  = Some Cases.serializerError /\
  runCmd Cases.serializerFails (Sample.sampleCmd false true)
  = Sample.sampleCmd false true.
Proof.
  destruct (@X13_serializer_failure _ _ _ _ Cases.serializerFails
              (Sample.sampleCmd false true)
              (layersDetails "https://x" [Sample.layer1; Sample.layer2])
              Cases.serializerError)
    as (A & _ & B).
  - vm_compute. do 13 right. left. reflexivity.
  - reflexivity.
  - split; [exact A | exact B].
Defined.

Lemma X14_previous_result_ignored_witness :
  runTrace (Cases.fine false)
           (SetResult (Sample.sampleCmd false true) (Some Cases.staleResult))
  = runTrace (Cases.fine false) (Sample.sampleCmd false true) /\
  runCmd (Cases.fine false)
         (SetResult (Sample.sampleCmd false true) (Some Cases.staleResult))
  = runCmd (Cases.fine false) (Sample.sampleCmd false true).
Proof.
  destruct (@X14_previous_result_ignored _ _ _ _ (Cases.fine false)
              (Sample.sampleCmd false true) (Some Cases.staleResult))
    as (_ & A & _ & B).
  split; [exact A |].
  apply B. intros H. discriminate H.
Defined.

Lemma X15_digest_summary_only_witness :
  runError (Cases.fine false) (Sample.sampleCmd true true) = None /\
  GetResult (runCmd (Cases.fine false) (Sample.sampleCmd true true))
  = Some (mkResult (Some (NewContentReader "/tmp/details.json" "files")) 3).
Proof.
  destruct (@X15_digest_summary_only _ _ _ _ (Cases.fine false)
              (Sample.sampleCmd true true) "build" "7" "docker-local"
              "sha256:abc" "/tmp/details.json" tt []
              [Sample.layer1; Sample.layer2; Sample.layer3] (Some "m"))
    as (A & B & _).
  - repeat split; reflexivity.
  - reflexivity.
  - reflexivity.
  - reflexivity.
  - reflexivity.
  - reflexivity.
  - reflexivity.
  - split; [exact A | exact B].
Defined.

Lemma X16_tag_summary_only_witness :
  runError (Cases.fine false) (Sample.sampleCmd false true) = None /\
  GetResult (runCmd (Cases.fine false) (Sample.sampleCmd false true))
  = Some (mkResult (Some (NewContentReader "/tmp/details.json" "files")) 2).
Proof.
  destruct (@X16_tag_summary_only _ _ _ _ (Cases.fine false)
              (Sample.sampleCmd false true) "build" "7" "docker-local"
              "/tmp/details.json" tt (false, [])
              (true, [Sample.layer1; Sample.layer2]) (Some "m"))
    as (A & B & _).
  - repeat split; reflexivity.
  - reflexivity.
  - reflexivity.
  - reflexivity.
  - reflexivity.
  - reflexivity.
  - split; [exact A | exact B].
Defined.

Lemma X18_target_path_of_plain_layers_witness :
  map TargetPath (layersDetails "https://x" [Sample.layer2; Sample.layer1])
  = ["docker-local/app/1.0/manifest.json"; "r/p/n"].
Proof.
  apply (@X18_target_path_of_plain_layers "https://x"
           [Sample.layer2; Sample.layer1]).
  repeat constructor.
  - exists ["docker-local"]. repeat split. discriminate.
  - exists ["app"; "1.0"]. repeat split. discriminate.
  - exists ["manifest.json"]. repeat split. discriminate.
  - exists ["r"]. repeat split. discriminate.
  - exists ["p"]. repeat split. discriminate.
  - exists ["n"]. repeat split. discriminate.
Defined.

Lemma X19_digest_success_delivers_witness :
  (existsb isSaveBuildGeneralDetails
           (runTrace (Cases.fine true) (Sample.sampleCmd true true)) = true /\
   existsb isSaveBuildInfo
           (runTrace (Cases.fine true) (Sample.sampleCmd true true)) = true) /\
  existsb isManifestWrite
          (runTrace (Cases.fine true) (Sample.sampleCmd true true)) = true.
Proof.
  destruct (@X19_digest_success_delivers _ _ _ _ (Cases.fine true)
              (Sample.sampleCmd true true) eq_refl eq_refl)
    as [A B].
  split; [apply A; reflexivity |].
  apply B. reflexivity.
Defined.

Section RunDependencies.

Variables BuildInfo ServiceManager RemoteBuilder LocalBuilder : Type.
Variable env : Env BuildInfo ServiceManager RemoteBuilder LocalBuilder.

(** X20: no step of [Run] is made without the steps it rests on: a module
    is saved only after the general details were saved and [Build] was
    called; the layers of a builder are read only after its one [Build];
    and the manifest is handed to the serializer exactly when the layers
    were read. *)
Theorem X20_steps_rest_on_earlier_ones (pc : PushCommand) :
  (existsb isSaveBuildInfo (runTrace env pc) = true ->
   existsb isSaveBuildGeneralDetails (runTrace env pc) = true /\
   buildCount (runTrace env pc) = 1%nat) /\
  (existsb isGetLayers (runTrace env pc) = true ->
   buildCount (runTrace env pc) = 1%nat) /\
  existsb isManifestWrite (runTrace env pc)
  = existsb isGetLayers (runTrace env pc).
Proof.
  split; [| split].
  - run_cases. all: cbn; try discriminate; intros _; split; reflexivity.
  - run_cases. all: cbn; try discriminate; intros _; reflexivity.
  - run_cases. all: reflexivity.
Qed.

End RunDependencies.

Lemma X20_steps_rest_on_earlier_ones_witness :
  (existsb isSaveBuildGeneralDetails
           (runTrace (Cases.fine true) (Sample.sampleCmd false true)) = true /\
   buildCount (runTrace (Cases.fine true) (Sample.sampleCmd false true)) = 1%nat) /\
  buildCount (runTrace (Cases.fine false) (Sample.sampleCmd true true)) = 1%nat.
Proof.
  destruct (@X20_steps_rest_on_earlier_ones _ _ _ _ (Cases.fine true)
              (Sample.sampleCmd false true)) as [A _].
  destruct (@X20_steps_rest_on_earlier_ones _ _ _ _ (Cases.fine false)
              (Sample.sampleCmd true true)) as [_ [B _]].
  split; [apply A; reflexivity | apply B; reflexivity].
Defined.
